(** * Daily wellness check-in: state, completion policy and history log

    A shallow embedding of [backend/src/agent.py]: the [CheckInState]
    dataclass, the JSON history file ([load_history], [save_checkin_entry]),
    the three tools of the agent ([record_mood_and_energy],
    [record_objectives], [complete_checkin]) and the summary of the last
    session that [entrypoint] builds.

    Python exceptions are the [Raise] case of [exc]; the history file and
    the session's [Userdata] are threaded explicitly through [world].
    Output on stdout ([print]) is not part of the model. *)

From Stdlib Require Import String Ascii List Bool Arith ZArith Lia DecimalString.
Import ListNotations.
Local Open Scope list_scope.
Local Open Scope string_scope.

(** ** Exceptions *)

Inductive exn : Type :=
| OSError      (* open(), os.makedirs() *)
| ValueError   (* UnicodeDecodeError, json.JSONDecodeError *)
| KeyError     (* d[k] with k absent *)
| TypeError.   (* subscripting or joining a value of the wrong type *)

Inductive exc (A : Type) : Type :=
| Ok (a : A)
| Raise (e : exn).

Arguments Ok {A} a.
Arguments Raise {A} e.

Definition bind {A B : Type} (m : exc A) (k : A -> exc B) : exc B :=
  match m with
  | Ok a => k a
  | Raise e => Raise e
  end.

(** [try: m except: h], Python's bare [except:] clause: every exception
    raised by the body is handled. *)
Definition try_except {A : Type} (m : exc A) (h : exc A) : exc A :=
  match m with
  | Ok a => Ok a
  | Raise _ => h
  end.

Declare Scope exc_scope.
Delimit Scope exc_scope with exc.
Notation "x <- m ;; k" := (bind m (fun x => k))
  (at level 100, m at next level, right associativity) : exc_scope.
Local Open Scope exc_scope.

(** ** JSON values, as [json.load] builds them and [json.dump] takes them

    A Python [dict] keeps its keys in insertion order; it is an association
    list here, looked up from the front.  Numbers are integers; floats do
    not occur in what the program writes. *)

#[warnings="-register-all"] Inductive json : Type :=
| JNull
| JBool (b : bool)
| JNum (n : Z)
| JStr (s : string)
| JList (l : list json)
| JDict (d : list (string * json)).

Fixpoint lookup (k : string) (d : list (string * json)) : option json :=
  match d with
  | [] => None
  | (k', v) :: d' => if String.eqb k k' then Some v else lookup k d'
  end.

(** [v[k]] for a string key [k]. *)
Definition subscript (v : json) (k : string) : exc json :=
  match v with
  | JDict d => match lookup k d with
               | Some x => Ok x
               | None => Raise KeyError
               end
  | _ => Raise TypeError
  end.

(** [x if x is None else JStr x] : a [str | None] field as a JSON value. *)
Definition opt_json (o : option string) : json :=
  match o with
  | Some s => JStr s
  | None => JNull
  end.

(** ** State management *)

Record CheckInState : Type := mkCheckInState {
  mood : option string;
  energy : option string;
  objectives : list string;
  advice_given : option string
}.

(** [CheckInState()] : the dataclass defaults. *)
Definition CheckInState_default : CheckInState :=
  mkCheckInState None None [] None.

Definition is_some {A : Type} (o : option A) : bool :=
  match o with
  | Some _ => true
  | None => false
  end.

(** [all([...])] over a list of Python booleans. *)
Definition all (l : list bool) : bool := forallb (fun b => b) l.

Definition is_complete (self : CheckInState) : bool :=
  all [ is_some (mood self);
        is_some (energy self);
        (0 <? List.length (objectives self))%nat ].

(** [asdict(self)] : the fields, in the order of their declaration. *)
Definition to_dict (self : CheckInState) : json :=
  JDict [ ("mood", opt_json (mood self));
          ("energy", opt_json (energy self));
          ("objectives", JList (map JStr (objectives self)));
          ("advice_given", opt_json (advice_given self)) ].

Record Userdata : Type := mkUserdata {
  current_checkin : CheckInState;
  history_summary : string;
  session_start : string
}.

(** ** JSON persistence *)

(** What is found at [get_log_path()]. *)
Inductive storage : Type :=
| Missing                  (* os.path.exists(path) is False *)
| Unreadable               (* something is there that open() refuses *)
| Stored (text : string).  (* a file with these bytes *)

Definition path_exists (fs : storage) : bool :=
  match fs with
  | Missing => false
  | _ => true
  end.

(** [open(path, "r")] followed by reading the whole file. *)
Definition read_text (fs : storage) : exc string :=
  match fs with
  | Stored text => Ok text
  | _ => Raise OSError
  end.

(** [os.makedirs(dirname, exist_ok=True)], [open(path, "w")] and writing
    [text]: the previous contents are replaced.  A location that [open]
    refuses is refused for writing as well. *)
Definition write_text (fs : storage) (text : string) : exc storage :=
  match fs with
  | Unreadable => Raise OSError
  | _ => Ok (Stored text)
  end.

Definition isinstance_list (v : json) : bool :=
  match v with
  | JList _ => true
  | _ => false
  end.

(** The elements of a list value; [load_history] only asks for them after
    [isinstance(data, list)]. *)
Definition elements (v : json) : list json :=
  match v with
  | JList l => l
  | _ => []
  end.

(** The dict literal of [save_checkin_entry]; [now] is the value of
    [datetime.now().isoformat()] at that point. *)
Definition checkin_record (now : string) (entry : CheckInState) : json :=
  JDict [ ("timestamp", JStr now);
          ("mood", opt_json (mood entry));
          ("energy", opt_json (energy entry));
          ("objectives", JList (map JStr (objectives entry)));
          ("summary", opt_json (advice_given entry)) ].

(** The session: the [Userdata] that [ctx.userdata] refers to, and the
    history file. *)
Record world : Type := mkWorld {
  userdata : Userdata;
  disk : storage
}.

(** Attribute assignments [self.f = v]. *)
Definition set_mood (v : option string) (c : CheckInState) : CheckInState :=
  mkCheckInState v (energy c) (objectives c) (advice_given c).

Definition set_energy (v : option string) (c : CheckInState) : CheckInState :=
  mkCheckInState (mood c) v (objectives c) (advice_given c).

Definition set_objectives (v : list string) (c : CheckInState) : CheckInState :=
  mkCheckInState (mood c) (energy c) v (advice_given c).

Definition set_advice_given (v : option string) (c : CheckInState) : CheckInState :=
  mkCheckInState (mood c) (energy c) (objectives c) v.

(** [ctx.userdata.current_checkin] is one object, mutated in place: an
    update of it is an update of the session. *)
Definition update_checkin (f : CheckInState -> CheckInState) (w : world) : world :=
  let u := userdata w in
  mkWorld (mkUserdata (f (current_checkin u)) (history_summary u) (session_start u))
          (disk w).

Definition set_disk (fs : storage) (w : world) : world :=
  mkWorld (userdata w) fs.

Definition nl : string := String (ascii_of_nat 10) EmptyString.

(** [str(x)] inside an f-string, for a [str | None] attribute. *)
Definition str_opt (o : option string) : string :=
  match o with
  | Some s => s
  | None => "None"
  end.

Section Persistence.

(** Python's [json] module: [json_load] decodes the bytes of the file as
    UTF-8 and parses them, raising on failure; [json_dump] is
    [json.dump(_, f, indent=4, ensure_ascii=False)]. *)
Variable json_load : string -> exc json.
Variable json_dump : json -> string.

Definition load_history (fs : storage) : exc (list json) :=
  if negb (path_exists fs) then Ok []
  else
    try_except
      (f <- read_text fs ;;
       data <- json_load f ;;
       Ok (if isinstance_list data then elements data else []))
      (Ok []).

Definition save_checkin_entry (now : string) (entry : CheckInState)
    (fs : storage) : exc storage :=
  history <- load_history fs ;;
  let record := checkin_record now entry in
  let history := (history ++ [record])%list in
  write_text fs (json_dump (JList history)).

(** ** Wellness tools

    A tool takes the session to its return value (or the exception it
    raises) and the session it leaves behind. *)

Definition record_mood_and_energy (mood energy : string) (w : world)
    : exc string * world :=
  let w := update_checkin (set_mood (Some mood)) w in
  let w := update_checkin (set_energy (Some energy)) w in
  (Ok ("Got it — you're feeling " ++ mood ++ " with " ++ energy ++ " energy."), w).

Definition record_objectives (objectives : list string) (w : world)
    : exc string * world :=
  let w := update_checkin (set_objectives objectives) w in
  (Ok "I've noted down your goals for today.", w).

Definition recap_text (state : CheckInState) (final_advice_summary : string)
    : string :=
  nl ++ "Here’s your daily recap:" ++ nl
  ++ "• Mood: " ++ str_opt (mood state) ++ nl
  ++ "• Energy: " ++ str_opt (energy state) ++ nl
  ++ "• Goals: " ++ String.concat ", " (objectives state) ++ nl
  ++ nl
  ++ "Reminder: " ++ final_advice_summary ++ nl
  ++ "Your check-in has been saved. Have a great day, Sanjay! 🌿" ++ nl.

Definition corrective_message : string :=
  "I still need your mood, energy, and at least one goal before finishing.".

(** [now] is what [datetime.now().isoformat()] returns if the call gets
    as far as [save_checkin_entry]. *)
Definition complete_checkin (now : string) (final_advice_summary : string)
    (w : world) : exc string * world :=
  let w := update_checkin (set_advice_given (Some final_advice_summary)) w in
  let state := current_checkin (userdata w) in
  if negb (is_complete state) then
    (Ok corrective_message, w)
  else
    match save_checkin_entry now state (disk w) with
    | Raise e => (Raise e, w)
    | Ok fs =>
        let w := set_disk fs w in
        (Ok (recap_text state final_advice_summary), w)
    end.

End Persistence.

(** ** Entrypoint: the summary of the last session *)

(** The bytes [10xxxxxx] continue a UTF-8 encoded character. *)
Definition is_continuation (c : ascii) : bool :=
  let n := nat_of_ascii c in ((128 <=? n) && (n <? 192))%nat.

Definition starts_with_continuation (s : string) : bool :=
  match s with
  | String c _ => is_continuation c
  | EmptyString => false
  end.

(** The characters of a [str], each as a [str] of its own: what iterating
    over a [str] yields. *)
Fixpoint characters (s : string) : list string :=
  match s with
  | EmptyString => []
  | String c s' =>
      match characters s' with
      | p :: ps =>
          if starts_with_continuation p then String c p :: ps
          else String c EmptyString :: p :: ps
      | [] => [String c EmptyString]
      end
  end.

(** The items of [l] when all of them are [str]. *)
Fixpoint all_str (l : list json) : option (list string) :=
  match l with
  | [] => Some []
  | JStr s :: l' =>
      match all_str l' with
      | Some ss => Some (s :: ss)
      | None => None
      end
  | _ :: _ => None
  end.

(** [sep.join(v)]: [v] has to be iterable and to yield only [str]. *)
Definition join (sep : string) (v : json) : exc string :=
  match v with
  | JList l =>
      match all_str l with
      | Some ss => Ok (String.concat sep ss)
      | None => Raise TypeError
      end
  | JStr s => Ok (String.concat sep (characters s))
  | JDict d => Ok (String.concat sep (map fst d))
  | _ => Raise TypeError
  end.

Section Summary.

(** [str(v)] for a list or a dict [v]. *)
Variable py_repr : json -> string.

(** [{v}] in an f-string. *)
Definition format_value (v : json) : string :=
  match v with
  | JNull => "None"
  | JBool true => "True"
  | JBool false => "False"
  | JNum n => NilZero.string_of_int (Z.to_int n)
  | JStr s => s
  | _ => py_repr v
  end.

(** The value of [history_summary] that [entrypoint] computes from
    [history]. *)
Definition summarize_latest (history : list json) : exc string :=
  match history with
  | [] => Ok "No previous sessions yet."
  | _ :: _ =>
      let last := List.last history JNull in
      timestamp <- subscript last "timestamp" ;;
      mood <- subscript last "mood" ;;
      energy <- subscript last "energy" ;;
      objectives <- subscript last "objectives" ;;
      goals <- join ", " objectives ;;
      Ok ("Last check-in on " ++ format_value timestamp ++ ". "
          ++ "Mood was " ++ format_value mood
          ++ ", energy " ++ format_value energy ++ ". "
          ++ "Goals: " ++ goals ++ ".")
  end.

(** [entrypoint] up to the construction of [userdata]; [now] is the value
    of [datetime.now()] that [session_start] defaults to. *)
Definition entrypoint_userdata (json_load : string -> exc json)
    (now : string) (fs : storage) : exc Userdata :=
  history <- load_history json_load fs ;;
  history_summary <- summarize_latest history ;;
  Ok (mkUserdata CheckInState_default history_summary now).

End Summary.

(** ** A reference JSON codec

    [json_load] and [json_dump] are Python's; the theorems below hold for
    whatever they compute.  To run the program on actual file contents,
    this module gives a printer following [json.dump(indent=4,
    ensure_ascii=False)] and a parser for JSON text without floating-point
    numbers (a float, or a [\u] escape above 7F, is rejected). *)

Module RefJson.

Definition quote : ascii := ascii_of_nat 34.
Definition backslash : ascii := ascii_of_nat 92.

Definition hex_digit (n : nat) : ascii :=
  nth n (list_ascii_of_string "0123456789abcdef") "0"%char.

Definition escape_char (c : ascii) : string :=
  let n := nat_of_ascii c in
  if Ascii.eqb c quote then String backslash (String quote "")
  else if Ascii.eqb c backslash then String backslash (String backslash "")
  else if (n =? 10)%nat then String backslash "n"
  else if (n =? 13)%nat then String backslash "r"
  else if (n =? 9)%nat then String backslash "t"
  else if (n =? 8)%nat then String backslash "b"
  else if (n =? 12)%nat then String backslash "f"
  else if (n <? 32)%nat then
    String backslash
      ("u00" ++ String (hex_digit (n / 16)) (String (hex_digit (n mod 16)) ""))
  else String c "".

Fixpoint escape (s : string) : string :=
  match s with
  | EmptyString => ""
  | String c s' => escape_char c ++ escape s'
  end.

Definition quoted (s : string) : string :=
  String quote (escape s ++ String quote "").

Fixpoint indent (level : nat) : string :=
  match level with
  | O => ""
  | S n => "    " ++ indent n
  end.

Fixpoint dump_at (level : nat) (v : json) : string :=
  match v with
  | JNull => "null"
  | JBool true => "true"
  | JBool false => "false"
  | JNum n => NilZero.string_of_int (Z.to_int n)
  | JStr s => quoted s
  | JList [] => "[]"
  | JList l =>
      "[" ++ nl
      ++ String.concat ("," ++ nl)
           (map (fun x => indent (S level) ++ dump_at (S level) x) l)
      ++ nl ++ indent level ++ "]"
  | JDict [] => "{}"
  | JDict d =>
      "{" ++ nl
      ++ String.concat ("," ++ nl)
           (map (fun kv => indent (S level) ++ quoted (fst kv) ++ ": "
                           ++ dump_at (S level) (snd kv)) d)
      ++ nl ++ indent level ++ "}"
  end.

Definition dumps (v : json) : string := dump_at 0 v.

Definition is_ws (c : ascii) : bool :=
  let n := nat_of_ascii c in
  ((n =? 32) || (n =? 9) || (n =? 10) || (n =? 13))%nat.

Fixpoint skip_ws (s : string) : string :=
  match s with
  | String c s' => if is_ws c then skip_ws s' else s
  | EmptyString => s
  end.

Definition hex_value (c : ascii) : option nat :=
  let n := nat_of_ascii c in
  if ((48 <=? n) && (n <=? 57))%nat then Some (n - 48)%nat
  else if ((97 <=? n) && (n <=? 102))%nat then Some (n - 87)%nat
  else if ((65 <=? n) && (n <=? 70))%nat then Some (n - 55)%nat
  else None.

(** [\uXXXX], for code points up to 7F. *)
Definition unicode_escape (a b c d : ascii) : option ascii :=
  match hex_value a, hex_value b, hex_value c, hex_value d with
  | Some 0%nat, Some 0%nat, Some h, Some l =>
      if (h <? 8)%nat then Some (ascii_of_nat (16 * h + l)) else None
  | _, _, _, _ => None
  end.

Definition simple_escape (c : ascii) : option ascii :=
  if Ascii.eqb c quote then Some quote
  else if Ascii.eqb c backslash then Some backslash
  else if Ascii.eqb c "/" then Some "/"%char
  else if Ascii.eqb c "n" then Some (ascii_of_nat 10)
  else if Ascii.eqb c "r" then Some (ascii_of_nat 13)
  else if Ascii.eqb c "t" then Some (ascii_of_nat 9)
  else if Ascii.eqb c "b" then Some (ascii_of_nat 8)
  else if Ascii.eqb c "f" then Some (ascii_of_nat 12)
  else None.

(** The rest of a string literal, after its opening quote. *)
Fixpoint parse_string_body (s : string) : option (string * string) :=
  match s with
  | EmptyString => None
  | String c s' =>
      if Ascii.eqb c quote then Some ("", s')
      else if Ascii.eqb c backslash then
        match s' with
        | String e s'' =>
            if Ascii.eqb e "u" then
              match s'' with
              | String h1 (String h2 (String h3 (String h4 s3))) =>
                  match unicode_escape h1 h2 h3 h4, parse_string_body s3 with
                  | Some x, Some (body, rest) => Some (String x body, rest)
                  | _, _ => None
                  end
              | _ => None
              end
            else
              match simple_escape e, parse_string_body s'' with
              | Some x, Some (body, rest) => Some (String x body, rest)
              | _, _ => None
              end
        | EmptyString => None
        end
      else if (nat_of_ascii c <? 32)%nat then None
      else
        match parse_string_body s' with
        | Some (body, rest) => Some (String c body, rest)
        | None => None
        end
  end.

Definition digit_value (c : ascii) : option Z :=
  let n := nat_of_ascii c in
  if ((48 <=? n) && (n <=? 57))%nat then Some (Z.of_nat (n - 48)) else None.

Fixpoint parse_digits (acc : Z) (s : string) : Z * string :=
  match s with
  | String c s' =>
      match digit_value c with
      | Some d => parse_digits (10 * acc + d) s'
      | None => (acc, s)
      end
  | EmptyString => (acc, s)
  end.

(** An integer literal: no leading zero, no fraction, no exponent. *)
Definition parse_natural (s : string) : option (Z * string) :=
  match s with
  | String c s' =>
      match digit_value c with
      | Some d =>
          let '(n, rest) := if (d =? 0)%Z then (0%Z, s') else parse_digits d s' in
          match rest with
          | String x _ =>
              if Ascii.eqb x "." || Ascii.eqb x "e" || Ascii.eqb x "E"
                 || is_some (digit_value x)
              then None else Some (n, rest)
          | EmptyString => Some (n, rest)
          end
      | None => None
      end
  | EmptyString => None
  end.

Fixpoint strip_prefix (p s : string) : option string :=
  match p, s with
  | EmptyString, _ => Some s
  | String a p', String b s' => if Ascii.eqb a b then strip_prefix p' s' else None
  | String _ _, EmptyString => None
  end.

(** [d[k] = v] on a dict under construction. *)
Fixpoint dict_set (k : string) (v : json) (d : list (string * json))
    : list (string * json) :=
  match d with
  | [] => [(k, v)]
  | (k', v') :: d' =>
      if String.eqb k k' then (k', v) :: d' else (k', v') :: dict_set k v d'
  end.

Section Parser.

(** The parser for a value one level down. *)
Variable parse_inner : string -> option (json * string).

(** The elements of a non-empty array up to its closing bracket. *)
Fixpoint parse_elems (n : nat) (s : string) : option (list json * string) :=
  match n with
  | O => None
  | S n' =>
      match parse_inner s with
      | Some (v, rest) =>
          match skip_ws rest with
          | String c rest' =>
              if Ascii.eqb c "," then
                match parse_elems n' rest' with
                | Some (vs, r) => Some (v :: vs, r)
                | None => None
                end
              else if Ascii.eqb c "]" then Some ([v], rest')
              else None
          | EmptyString => None
          end
      | None => None
      end
  end.

(** The members of a non-empty object up to its closing brace, added to
    [acc]. *)
Fixpoint parse_members (n : nat) (acc : list (string * json)) (s : string)
    : option (list (string * json) * string) :=
  match n with
  | O => None
  | S n' =>
      match skip_ws s with
      | String q s1 =>
          if Ascii.eqb q quote then
            match parse_string_body s1 with
            | Some (k, s2) =>
                match skip_ws s2 with
                | String colon s3 =>
                    if Ascii.eqb colon ":" then
                      match parse_inner s3 with
                      | Some (v, rest) =>
                          let acc' := dict_set k v acc in
                          match skip_ws rest with
                          | String c rest' =>
                              if Ascii.eqb c "," then parse_members n' acc' rest'
                              else if Ascii.eqb c "}" then Some (acc', rest')
                              else None
                          | EmptyString => None
                          end
                      | None => None
                      end
                    else None
                | EmptyString => None
                end
            | None => None
            end
          else None
      | EmptyString => None
      end
  end.

End Parser.

Fixpoint parse_value (fuel : nat) (s : string) : option (json * string) :=
  match fuel with
  | O => None
  | S fuel' =>
      match skip_ws s with
      | EmptyString => None
      | String c rest as s0 =>
          if Ascii.eqb c quote then
            match parse_string_body rest with
            | Some (body, r) => Some (JStr body, r)
            | None => None
            end
          else if Ascii.eqb c "[" then
            match skip_ws rest with
            | String c' r =>
                if Ascii.eqb c' "]" then Some (JList [], r)
                else
                  match parse_elems (parse_value fuel') (String.length rest) rest with
                  | Some (vs, r') => Some (JList vs, r')
                  | None => None
                  end
            | EmptyString => None
            end
          else if Ascii.eqb c "{" then
            match skip_ws rest with
            | String c' r =>
                if Ascii.eqb c' "}" then Some (JDict [], r)
                else
                  match parse_members (parse_value fuel') (String.length rest) [] rest with
                  | Some (d, r') => Some (JDict d, r')
                  | None => None
                  end
            | EmptyString => None
            end
          else if Ascii.eqb c "-" then
            match parse_natural rest with
            | Some (n, r) => Some (JNum (- n), r)
            | None => None
            end
          else
            match strip_prefix "null" s0, strip_prefix "true" s0,
                  strip_prefix "false" s0 with
            | Some r, _, _ => Some (JNull, r)
            | _, Some r, _ => Some (JBool true, r)
            | _, _, Some r => Some (JBool false, r)
            | _, _, _ =>
                match parse_natural s0 with
                | Some (n, r) => Some (JNum n, r)
                | None => None
                end
            end
      end
  end.

Definition loads (s : string) : exc json :=
  match parse_value (S (String.length s)) s with
  | Some (v, rest) =>
      match skip_ws rest with
      | EmptyString => Ok v
      | String _ _ => Raise ValueError
      end
  | None => Raise ValueError
  end.

End RefJson.

(** ** A session to run the program on *)

Definition yesterday : CheckInState :=
  mkCheckInState (Some "tired") (Some "low") ["sleep early"] (Some "Rest well.").

Definition today : CheckInState :=
  mkCheckInState (Some "happy") (Some "high") ["read"; "walk"] None.

(** A log holding one earlier record, as [json.dump] leaves it. *)
Definition yesterdays_log : storage :=
  Stored (RefJson.dumps (JList [checkin_record "2025-11-22T09:00:00" yesterday])).

Definition todays_session : world :=
  mkWorld (mkUserdata today "" "2025-11-23T10:00:00") yesterdays_log.

(** ** Vocabulary of the statements *)

(** [needle] occurs in [hay] as a contiguous piece. *)
Definition occurs_in (needle hay : string) : Prop :=
  exists before after, hay = before ++ needle ++ after.

Definition is_str_or_null (v : json) : bool :=
  match v with
  | JStr _ | JNull => true
  | _ => false
  end.

Definition is_str_list (v : json) : bool :=
  match v with
  | JList l => is_some (all_str l)
  | _ => false
  end.

Definition has_field (d : list (string * json)) (k : string)
    (p : json -> bool) : bool :=
  match lookup k d with
  | Some v => p v
  | None => false
  end.

(** The shape of one persisted record: a dict with a string [timestamp],
    [mood], [energy] and [summary] each a string or null, and
    [objectives] a list of strings. *)
Definition record_shaped (v : json) : bool :=
  match v with
  | JDict d =>
      has_field d "timestamp" (fun x => match x with JStr _ => true | _ => false end)
      && has_field d "mood" is_str_or_null
      && has_field d "energy" is_str_or_null
      && has_field d "objectives" is_str_list
      && has_field d "summary" is_str_or_null
  | _ => false
  end.

(** [json_load] gives back [v] from the text [json_dump] writes for it. *)
Definition reads_back (json_load : string -> exc json)
    (json_dump : json -> string) (v : json) : Prop :=
  json_load (json_dump v) = Ok v.

(** * Properties *)

(** ** Completeness of a check-in *)

Lemma is_complete_true (s : CheckInState) :
  is_complete s = true <->
  (exists m, mood s = Some m) /\ (exists e, energy s = Some e)
  /\ 1 <= List.length (objectives s).
Proof.
  unfold is_complete, all; simpl. rewrite andb_true_r.
  rewrite !andb_true_iff, Nat.ltb_lt. split.
  - intros (Hm & He & Hl).
    destruct (mood s) as [m|]; [|discriminate].
    destruct (energy s) as [e|]; [|discriminate].
    repeat split; eauto.
  - intros ([m Hm] & [e He] & Hl). rewrite Hm, He. repeat split; trivial.
Qed.

(** C1. [is_complete()] is true exactly when [mood] is set, [energy] is
    set and [objectives] has at least one element; whatever
    [advice_given] holds does not change the answer. *)
Theorem is_complete_iff_fields_set :
  forall s : CheckInState,
    (is_complete s = true <->
       mood s <> None /\ energy s <> None /\ 1 <= List.length (objectives s))
    /\ (forall a : option string,
          is_complete (set_advice_given a s) = is_complete s).
Proof.
  intros s. split.
  - rewrite is_complete_true. split.
    + intros ([m Hm] & [e He] & Hl). rewrite Hm, He. repeat split; congruence.
    + intros (Hm & He & Hl). repeat split; trivial.
      * destruct (mood s) as [m|]; [eauto | congruence].
      * destruct (energy s) as [e|]; [eauto | congruence].
  - intros a. reflexivity.
Qed.

(** ** Reading the history *)

Section LoadHistory.

Variable json_load : string -> exc json.

(** What [load_history] returns on a file, by what [json_load] makes of
    its text. *)
Lemma load_history_stored (text : string) :
  load_history json_load (Stored text)
  = Ok (match json_load text with
        | Ok (JList l) => l
        | _ => []
        end).
Proof.
  unfold load_history; simpl.
  destruct (json_load text) as [v|e]; simpl; [|reflexivity].
  destruct v; reflexivity.
Qed.

(** C6. With nothing at the log path, [load_history] returns the empty
    list and raises nothing. *)
Theorem load_history_missing :
  load_history json_load Missing = Ok [].
Proof. reflexivity. Qed.

(** C9. [load_history] returns a list in every state of the file system:
    no file, a file that cannot be opened, or a file with any bytes at
    all, whatever [json_load] does with them; no exception leaves it. *)
Theorem load_history_total :
  forall fs : storage, exists l : list json, load_history json_load fs = Ok l.
Proof.
  intros [| |text].
  - exists []. reflexivity.
  - exists []. reflexivity.
  - rewrite load_history_stored. eauto.
Qed.

(** C5, as the code has it. A file whose text [json_load] rejects, or
    parses to something that is not a list, reads as the empty history,
    without an exception; a file that parses to a list reads as that
    list, elements that are not records included. *)
Theorem load_history_swallows_non_lists :
  forall text : string,
    ((forall l, json_load text <> Ok (JList l)) ->
       load_history json_load (Stored text) = Ok [])
    /\ (forall l, json_load text = Ok (JList l) ->
          load_history json_load (Stored text) = Ok l).
Proof.
  intros text. rewrite load_history_stored. split.
  - intros H. destruct (json_load text) as [v|e]; [|reflexivity].
    destruct v; try reflexivity. exfalso. apply (H l). reflexivity.
  - intros l H. rewrite H. reflexivity.
Qed.

End LoadHistory.

(** On the text [[1]] the claim that ill-shaped elements make the history
    empty fails: the text parses to a list, its element is not a record,
    and [load_history] returns the list as it is. *)
Lemma load_history_keeps_unshaped_elements :
  RefJson.loads "[1]" = Ok (JList [JNum 1])
  /\ forallb record_shaped [JNum 1] = false
  /\ load_history RefJson.loads (Stored "[1]") = Ok [JNum 1]
  /\ load_history RefJson.loads (Stored "[1]") <> Ok [].
Proof.
  repeat split; try reflexivity.
  vm_compute. discriminate.
Qed.

Lemma load_history_swallows_non_lists_witness :
  load_history RefJson.loads (Stored "{}") = Ok []
  /\ load_history RefJson.loads (Stored "not json") = Ok []
  /\ load_history RefJson.loads (Stored "[1]") = Ok [JNum 1].
Proof.
  split; [|split].
  - apply (proj1 (load_history_swallows_non_lists RefJson.loads "{}")).
    intros l H. vm_compute in H. discriminate H.
  - apply (proj1 (load_history_swallows_non_lists RefJson.loads "not json")).
    intros l H. vm_compute in H. discriminate H.
  - apply (proj2 (load_history_swallows_non_lists RefJson.loads "[1]")).
    vm_compute. reflexivity.
Defined.

(** ** The tools that fill in the check-in *)

(** C8. [record_objectives] replaces the list of objectives: after a call
    with [a] and then a call with [b] the objectives are [b], and the
    session and the returned text are those of the call with [b] alone. *)
Theorem record_objectives_overwrites :
  forall (a b : list string) (w : world),
    let after_a := snd (record_objectives a w) in
    objectives (current_checkin (userdata (snd (record_objectives b after_a)))) = b
    /\ record_objectives b after_a = record_objectives b w.
Proof.
  intros a b [[c hs st] fs]. split; reflexivity.
Qed.

(** C10. [record_mood_and_energy] sets [mood] and [energy] and leaves
    [objectives], [advice_given], the rest of the session and the history
    file as they were; [record_objectives] sets [objectives] and leaves
    [mood], [energy], [advice_given], the rest of the session and the
    history file as they were. *)
Theorem recording_tools_frame :
  forall (w : world),
    let c := current_checkin (userdata w) in
    (forall m e : string,
        let w' := snd (record_mood_and_energy m e w) in
        let c' := current_checkin (userdata w') in
        mood c' = Some m /\ energy c' = Some e
        /\ objectives c' = objectives c
        /\ advice_given c' = advice_given c
        /\ history_summary (userdata w') = history_summary (userdata w)
        /\ session_start (userdata w') = session_start (userdata w)
        /\ disk w' = disk w)
    /\ (forall o : list string,
        let w' := snd (record_objectives o w) in
        let c' := current_checkin (userdata w') in
        objectives c' = o
        /\ mood c' = mood c /\ energy c' = energy c
        /\ advice_given c' = advice_given c
        /\ history_summary (userdata w') = history_summary (userdata w)
        /\ session_start (userdata w') = session_start (userdata w)
        /\ disk w' = disk w).
Proof.
  intros [[c hs st] fs]. split; intros; repeat split; reflexivity.
Qed.

(** ** Completing the check-in *)

Section Complete.

Variable json_load : string -> exc json.
Variable json_dump : json -> string.

(** C2. When [is_complete()] is false, [complete_checkin] returns the
    message asking for mood, energy and at least one goal, leaves the
    history file as it was, so that [load_history] reads the same records
    as before, and leaves [advice_given] holding the summary it was
    called with. *)
Theorem complete_checkin_incomplete :
  forall (now summary : string) (w : world),
    is_complete (current_checkin (userdata w)) = false ->
    let r := complete_checkin json_load json_dump now summary w in
    fst r = Ok corrective_message
    /\ occurs_in "mood" corrective_message
    /\ occurs_in "energy" corrective_message
    /\ occurs_in "at least one goal" corrective_message
    /\ disk (snd r) = disk w
    /\ load_history json_load (disk (snd r)) = load_history json_load (disk w)
    /\ advice_given (current_checkin (userdata (snd r))) = Some summary.
Proof.
  intros now summary [[c hs st] fs] H; simpl in H.
  unfold complete_checkin; simpl.
  change (is_complete (set_advice_given (Some summary) c)) with (is_complete c).
  rewrite H; simpl.
  repeat split.
  - exists "I still need your ", ", energy, and at least one goal before finishing.".
    reflexivity.
  - exists "I still need your mood, ", ", and at least one goal before finishing.".
    reflexivity.
  - exists "I still need your mood, energy, and ", " before finishing.".
    reflexivity.
Qed.

End Complete.

Lemma complete_checkin_incomplete_witness :
  let w := mkWorld (mkUserdata CheckInState_default "No previous sessions yet." "t0")
                   (Stored "[]") in
  let r := complete_checkin RefJson.loads RefJson.dumps "t1" "summary" w in
  fst r = Ok corrective_message
  /\ disk (snd r) = Stored "[]"
  /\ advice_given (current_checkin (userdata (snd r))) = Some "summary".
Proof.
  intros w r.
  pose proof (complete_checkin_incomplete RefJson.loads RefJson.dumps
                "t1" "summary" w eq_refl) as H.
  destruct H as (H1 & _ & _ & _ & H2 & _ & H3).
  repeat split; assumption.
Defined.

(** ** Appending to the history *)

Lemma append_assoc (a b c : string) : (a ++ b) ++ c = a ++ b ++ c.
Proof.
  induction a as [|x a IH]; simpl; [reflexivity | rewrite IH; reflexivity].
Qed.

Lemma occurs_in_head (s rest : string) : occurs_in s (s ++ rest).
Proof. exists "", rest. reflexivity. Qed.

Lemma occurs_in_skip (s front t : string) :
  occurs_in s t -> occurs_in s (front ++ t).
Proof.
  intros (b & a & ->). exists (front ++ b), a.
  rewrite append_assoc. reflexivity.
Qed.

Section Append.

Local Open Scope list_scope.

Variable json_load : string -> exc json.
Variable json_dump : json -> string.

(** One run of [save_checkin_entry] on a location that can be written,
    when the text written reads back. *)
Lemma save_checkin_entry_ok (now : string) (entry : CheckInState)
    (fs : storage) (history : list json) :
  fs <> Unreadable ->
  load_history json_load fs = Ok history ->
  reads_back json_load json_dump (JList (history ++ [checkin_record now entry])) ->
  exists fs',
    save_checkin_entry json_load json_dump now entry fs = Ok fs'
    /\ fs' <> Unreadable
    /\ load_history json_load fs' = Ok (history ++ [checkin_record now entry]).
Proof.
  intros Hfs Hload Hback.
  exists (Stored (json_dump (JList (history ++ [checkin_record now entry])))).
  split; [|split].
  - unfold save_checkin_entry. rewrite Hload; simpl.
    destruct fs; [reflexivity | congruence | reflexivity].
  - discriminate.
  - rewrite load_history_stored. unfold reads_back in Hback.
    rewrite Hback. reflexivity.
Qed.

(** C3. [save_checkin_entry] makes the history one record longer: the
    records read before, followed by one whose [mood], [energy] and
    [objectives] are those of the state, whose [summary] is the state's
    [advice_given], and whose [timestamp] is the time of the write, which
    is no field of the state. *)
Theorem save_checkin_entry_appends :
  forall (now : string) (entry : CheckInState) (fs : storage)
         (history : list json),
    fs <> Unreadable ->
    load_history json_load fs = Ok history ->
    reads_back json_load json_dump (JList (history ++ [checkin_record now entry])) ->
    exists (fs' : storage) (history' : list json),
      save_checkin_entry json_load json_dump now entry fs = Ok fs'
      /\ load_history json_load fs' = Ok history'
      /\ List.length history' = S (List.length history)
      /\ firstn (List.length history) history' = history
      /\ (let r := List.last history' JNull in
          subscript r "timestamp" = Ok (JStr now)
          /\ subscript r "mood" = Ok (opt_json (mood entry))
          /\ subscript r "energy" = Ok (opt_json (energy entry))
          /\ subscript r "objectives" = Ok (JList (map JStr (objectives entry)))
          /\ subscript r "summary" = Ok (opt_json (advice_given entry))).
Proof.
  intros now entry fs history Hfs Hload Hback.
  destruct (save_checkin_entry_ok now entry fs history Hfs Hload Hback)
    as (fs' & Hsave & _ & Hload').
  exists fs', (history ++ [checkin_record now entry])%list.
  split; [exact Hsave|]. split; [exact Hload'|].
  split; [rewrite length_app; simpl; lia|].
  split.
  - rewrite firstn_app, Nat.sub_diag, firstn_all. simpl. apply app_nil_r.
  - rewrite last_last. repeat split; reflexivity.
Qed.

Lemma is_complete_set_advice_given (a : option string) (c : CheckInState) :
  is_complete (set_advice_given a c) = is_complete c.
Proof. reflexivity. Qed.

(** One call of [complete_checkin] on a complete state whose record is
    saved as [fs']. *)
Lemma complete_checkin_saves (now summary : string) (w : world)
    (fs' : storage) :
  let state := set_advice_given (Some summary) (current_checkin (userdata w)) in
  is_complete (current_checkin (userdata w)) = true ->
  save_checkin_entry json_load json_dump now state (disk w) = Ok fs' ->
  complete_checkin json_load json_dump now summary w
  = (Ok (recap_text state summary),
     mkWorld (mkUserdata state (history_summary (userdata w))
                         (session_start (userdata w))) fs').
Proof.
  destruct w as [[c hs st] fs].
  cbn [userdata current_checkin disk history_summary session_start].
  intros Hc Hsave.
  unfold complete_checkin, update_checkin, set_disk.
  cbn [userdata current_checkin disk history_summary session_start].
  rewrite is_complete_set_advice_given, Hc.
  cbn [negb]. rewrite Hsave. reflexivity.
Qed.

(** C4. Each call of [complete_checkin] on a complete state appends a
    record: after two calls the history holds two more records, one per
    call, and when both calls pass the same summary the two records
    differ in nothing but their timestamps. *)
Theorem complete_checkin_twice_appends_twice :
  forall (t1 t2 s1 s2 : string) (w : world) (history : list json),
    let c := current_checkin (userdata w) in
    let r1 := checkin_record t1 (set_advice_given (Some s1) c) in
    let r2 := checkin_record t2 (set_advice_given (Some s2) c) in
    is_complete c = true ->
    disk w <> Unreadable ->
    load_history json_load (disk w) = Ok history ->
    reads_back json_load json_dump (JList (history ++ [r1])) ->
    reads_back json_load json_dump (JList ((history ++ [r1]) ++ [r2])) ->
    let first := complete_checkin json_load json_dump t1 s1 w in
    let second := complete_checkin json_load json_dump t2 s2 (snd first) in
    fst first = Ok (recap_text (set_advice_given (Some s1) c) s1)
    /\ load_history json_load (disk (snd first)) = Ok (history ++ [r1])
    /\ fst second = Ok (recap_text (set_advice_given (Some s2) c) s2)
    /\ load_history json_load (disk (snd second)) = Ok ((history ++ [r1]) ++ [r2])
    /\ (s1 = s2 ->
        forall k : string, k <> "timestamp" -> subscript r1 k = subscript r2 k).
Proof.
  intros t1 t2 s1 s2 w history c r1 r2 Hc Hfs Hload Hb1 Hb2 first second.
  destruct (save_checkin_entry_ok t1 (set_advice_given (Some s1) c) (disk w)
              history Hfs Hload Hb1) as (fs1 & Hsave1 & Hfs1 & Hload1).
  destruct (save_checkin_entry_ok t2 (set_advice_given (Some s2) c) fs1 _
              Hfs1 Hload1 Hb2) as (fs2 & Hsave2 & _ & Hload2).
  assert (H1 : first
               = (Ok (recap_text (set_advice_given (Some s1) c) s1),
                  mkWorld (mkUserdata (set_advice_given (Some s1) c)
                             (history_summary (userdata w))
                             (session_start (userdata w))) fs1)).
  { apply complete_checkin_saves; assumption. }
  assert (H2 : second
               = (Ok (recap_text (set_advice_given (Some s2) c) s2),
                  mkWorld (mkUserdata (set_advice_given (Some s2) c)
                             (history_summary (userdata w))
                             (session_start (userdata w))) fs2)).
  { unfold second. rewrite H1.
    apply (complete_checkin_saves t2 s2
             (mkWorld (mkUserdata (set_advice_given (Some s1) c)
                         (history_summary (userdata w))
                         (session_start (userdata w))) fs1) fs2).
    - exact Hc.
    - exact Hsave2. }
  rewrite H2, H1. cbn [fst snd disk].
  repeat split; trivial.
  intros E k Hk. unfold r1, r2. rewrite E.
  unfold checkin_record, subscript. cbn [lookup].
  destruct (String.eqb_spec k "timestamp") as [Ek|_]; [contradiction | reflexivity].
Qed.

End Append.

Lemma save_checkin_entry_appends_witness :
  exists (fs' : storage) (history' : list json),
    save_checkin_entry RefJson.loads RefJson.dumps "2025-11-23T10:05:00" today
      yesterdays_log = Ok fs'
    /\ load_history RefJson.loads fs' = Ok history'
    /\ List.length history' = 2
    /\ firstn 1 history' = [checkin_record "2025-11-22T09:00:00" yesterday]
    /\ (let r := List.last history' JNull in
        subscript r "timestamp" = Ok (JStr "2025-11-23T10:05:00")
        /\ subscript r "mood" = Ok (JStr "happy")
        /\ subscript r "energy" = Ok (JStr "high")
        /\ subscript r "objectives" = Ok (JList [JStr "read"; JStr "walk"])
        /\ subscript r "summary" = Ok JNull).
Proof.
  apply (save_checkin_entry_appends RefJson.loads RefJson.dumps
           "2025-11-23T10:05:00" today yesterdays_log
           [checkin_record "2025-11-22T09:00:00" yesterday]).
  - discriminate.
  - vm_compute. reflexivity.
  - vm_compute. reflexivity.
Defined.

Lemma complete_checkin_twice_appends_twice_witness :
  let first :=
    complete_checkin RefJson.loads RefJson.dumps "2025-11-23T10:05:00"
      "Keep it up!" todays_session in
  let second :=
    complete_checkin RefJson.loads RefJson.dumps "2025-11-23T10:06:00"
      "Keep it up!" (snd first) in
  let done := set_advice_given (Some "Keep it up!") today in
  load_history RefJson.loads (disk (snd second))
  = Ok [ checkin_record "2025-11-22T09:00:00" yesterday;
         checkin_record "2025-11-23T10:05:00" done;
         checkin_record "2025-11-23T10:06:00" done ].
Proof.
  intros first second done.
  assert (Hback1 : reads_back RefJson.loads RefJson.dumps
            (JList ([checkin_record "2025-11-22T09:00:00" yesterday]
                    ++ [checkin_record "2025-11-23T10:05:00" done])%list))
    by (vm_compute; reflexivity).
  assert (Hback2 : reads_back RefJson.loads RefJson.dumps
            (JList (([checkin_record "2025-11-22T09:00:00" yesterday]
                     ++ [checkin_record "2025-11-23T10:05:00" done])
                    ++ [checkin_record "2025-11-23T10:06:00" done])%list))
    by (vm_compute; reflexivity).
  assert (Hload : load_history RefJson.loads (disk todays_session)
                  = Ok [checkin_record "2025-11-22T09:00:00" yesterday])
    by (vm_compute; reflexivity).
  assert (Hfs : disk todays_session <> Unreadable) by discriminate.
  exact (proj1 (proj2 (proj2 (proj2
           (complete_checkin_twice_appends_twice RefJson.loads RefJson.dumps
              "2025-11-23T10:05:00" "2025-11-23T10:06:00"
              "Keep it up!" "Keep it up!" todays_session
              [checkin_record "2025-11-22T09:00:00" yesterday]
              eq_refl Hfs Hload Hback1 Hback2))))).
Defined.

(** ** The summary of the last session *)

Lemma all_str_map_JStr (l : list string) : all_str (map JStr l) = Some l.
Proof.
  induction l as [|s l IH]; simpl; [reflexivity | rewrite IH; reflexivity].
Qed.

Lemma format_value_opt_json (py_repr : json -> string) (o : option string) :
  format_value py_repr (opt_json o) = str_opt o.
Proof. destruct o; reflexivity. Qed.

(** The summary of a history that ends with a record of a check-in. *)
Lemma summarize_latest_record (py_repr : json -> string)
    (earlier : list json) (timestamp : string) (entry : CheckInState) :
  summarize_latest py_repr (earlier ++ [checkin_record timestamp entry])%list
  = Ok ("Last check-in on " ++ timestamp ++ ". "
        ++ "Mood was " ++ str_opt (mood entry)
        ++ ", energy " ++ str_opt (energy entry) ++ ". "
        ++ "Goals: " ++ String.concat ", " (objectives entry) ++ ".").
Proof.
  unfold summarize_latest.
  destruct (earlier ++ [checkin_record timestamp entry])%list as [|x l] eqn:E.
  - destruct earlier; discriminate E.
  - rewrite <- E, last_last.
    cbn [checkin_record subscript lookup String.eqb Ascii.eqb Bool.eqb bind join].
    rewrite all_str_map_JStr, !format_value_opt_json. reflexivity.
Qed.

(** C7. On the empty history the summary is the fixed text
    [No previous sessions yet.]; on a history that ends with a record it
    is a text in which the record's timestamp, its mood, its energy and
    its objectives joined by [", "] all occur. *)
Theorem summarize_latest_contents :
  forall py_repr : json -> string,
    summarize_latest py_repr [] = Ok "No previous sessions yet."
    /\ (forall (earlier : list json) (timestamp : string) (entry : CheckInState),
          exists text : string,
            summarize_latest py_repr
              (earlier ++ [checkin_record timestamp entry])%list = Ok text
            /\ occurs_in timestamp text
            /\ occurs_in (str_opt (mood entry)) text
            /\ occurs_in (str_opt (energy entry)) text
            /\ occurs_in (String.concat ", " (objectives entry)) text).
Proof.
  intros py_repr. split; [reflexivity|].
  intros earlier timestamp entry.
  eexists. split; [apply summarize_latest_record|].
  repeat split.
  - apply occurs_in_skip, occurs_in_head.
  - do 4 apply occurs_in_skip. apply occurs_in_head.
  - do 6 apply occurs_in_skip. apply occurs_in_head.
  - do 9 apply occurs_in_skip. apply occurs_in_head.
Qed.

(** ** A whole session

    From no log at all: mood and energy, then the goals, then the
    completion.  The recap is returned and the log holds one record. *)
Example first_session :
  let w0 := mkWorld (mkUserdata CheckInState_default "No previous sessions yet." "t0")
                    Missing in
  let w1 := snd (record_mood_and_energy "happy" "high" w0) in
  let w2 := snd (record_objectives ["read"; "walk"] w1) in
  let r := complete_checkin RefJson.loads RefJson.dumps "2025-11-23T10:05:00"
             "Keep it up!" w2 in
  fst r = Ok (recap_text (current_checkin (userdata (snd r))) "Keep it up!")
  /\ load_history RefJson.loads (disk (snd r))
     = Ok [ JDict [ ("timestamp", JStr "2025-11-23T10:05:00");
                    ("mood", JStr "happy");
                    ("energy", JStr "high");
                    ("objectives", JList [JStr "read"; JStr "walk"]);
                    ("summary", JStr "Keep it up!") ] ].
Proof. split; vm_compute; reflexivity. Qed.

(** * Further properties of the tools *)

(** X1. [record_mood_and_energy] overwrites: a call after an earlier call
    leaves the session, and returns the text, of the later call alone. *)
Theorem record_mood_and_energy_overwrites :
  forall (m1 e1 m2 e2 : string) (w : world),
    record_mood_and_energy m2 e2 (snd (record_mood_and_energy m1 e1 w))
    = record_mood_and_energy m2 e2 w.
Proof.
  intros m1 e1 m2 e2 [[c hs st] fs]. reflexivity.
Qed.

(** X2. The two recording tools can be called in either order: the
    session they leave is the same. *)
Theorem recording_tools_commute :
  forall (m e : string) (o : list string) (w : world),
    snd (record_objectives o (snd (record_mood_and_energy m e w)))
    = snd (record_mood_and_energy m e (snd (record_objectives o w))).
Proof.
  intros m e o [[c hs st] fs]. reflexivity.
Qed.

(** X3. Whatever the check-in held before, once mood and energy and a
    non-empty list of objectives have been recorded, in either order, the
    check-in is complete. *)
Theorem recorded_checkin_is_complete :
  forall (m e : string) (o : list string) (w : world),
    o <> [] ->
    is_complete (current_checkin (userdata
      (snd (record_objectives o (snd (record_mood_and_energy m e w)))))) = true
    /\ is_complete (current_checkin (userdata
      (snd (record_mood_and_energy m e (snd (record_objectives o w)))))) = true.
Proof.
  intros m e o [[c hs st] fs] Ho.
  destruct o as [|x o]; [congruence|]. split; reflexivity.
Qed.

Lemma recorded_checkin_is_complete_witness :
  is_complete (current_checkin (userdata
    (snd (record_objectives ["read"]
       (snd (record_mood_and_energy "happy" "high"
          (mkWorld (mkUserdata CheckInState_default "" "t0") Missing)))))))
  = true.
Proof.
  apply (recorded_checkin_is_complete "happy" "high" ["read"]
           (mkWorld (mkUserdata CheckInState_default "" "t0") Missing)).
  discriminate.
Defined.

Section CompleteMore.

Variable json_load : string -> exc json.
Variable json_dump : json -> string.

(** X4. Recording an empty list of objectives is accepted and makes the
    check-in incomplete, whatever it held: [complete_checkin] then answers
    with the corrective message and writes nothing. *)
Theorem empty_objectives_block_completion :
  forall (now summary : string) (w : world),
    let w' := snd (record_objectives [] w) in
    fst (record_objectives [] w) = Ok "I've noted down your goals for today."
    /\ is_complete (current_checkin (userdata w')) = false
    /\ fst (complete_checkin json_load json_dump now summary w')
       = Ok corrective_message
    /\ disk (snd (complete_checkin json_load json_dump now summary w')) = disk w.
Proof.
  intros now summary [[c hs st] fs]. cbn [snd fst record_objectives].
  assert (H : is_complete (set_objectives [] c) = false).
  { unfold is_complete, all, set_objectives; simpl.
    destruct (is_some (mood c)), (is_some (energy c)); reflexivity. }
  repeat split.
  - exact H.
  - unfold complete_checkin, update_checkin.
    cbn [userdata current_checkin disk history_summary session_start].
    rewrite is_complete_set_advice_given, H. reflexivity.
  - unfold complete_checkin, update_checkin.
    cbn [userdata current_checkin disk history_summary session_start].
    rewrite is_complete_set_advice_given, H. reflexivity.
Qed.

(** What [complete_checkin] does to the session, by the three ways it can
    end. *)
Lemma complete_checkin_cases (now summary : string) (w : world) :
  let state := set_advice_given (Some summary) (current_checkin (userdata w)) in
  let u := mkUserdata state (history_summary (userdata w))
                      (session_start (userdata w)) in
  let r := complete_checkin json_load json_dump now summary w in
  (is_complete state = false
   /\ r = (Ok corrective_message, mkWorld u (disk w)))
  \/ (is_complete state = true
      /\ exists e, save_checkin_entry json_load json_dump now state (disk w)
                   = Raise e
                   /\ r = (Raise e, mkWorld u (disk w)))
  \/ (is_complete state = true
      /\ exists fs', save_checkin_entry json_load json_dump now state (disk w)
                     = Ok fs'
                     /\ r = (Ok (recap_text state summary), mkWorld u fs')).
Proof.
  destruct w as [[c hs st] fs].
  cbn [userdata current_checkin disk history_summary session_start].
  unfold complete_checkin, update_checkin, set_disk.
  cbn [userdata current_checkin disk history_summary session_start].
  destruct (is_complete (set_advice_given (Some summary) c)) eqn:Hc; cbn [negb].
  - right.
    destruct (save_checkin_entry json_load json_dump now
                (set_advice_given (Some summary) c) fs) as [fs'|e] eqn:Hs.
    + right. split; [reflexivity|]. exists fs'. split; reflexivity.
    + left. split; [reflexivity|]. exists e. split; reflexivity.
  - left. split; reflexivity.
Qed.

(** X5. However [complete_checkin] ends (corrective message, exception of
    the write, recap), it leaves [mood], [energy], [objectives] and the
    rest of the [Userdata] as they were and [advice_given] holding the
    summary passed in. *)
Theorem complete_checkin_frame :
  forall (now summary : string) (w : world),
    let c := current_checkin (userdata w) in
    let w' := snd (complete_checkin json_load json_dump now summary w) in
    let c' := current_checkin (userdata w') in
    mood c' = mood c /\ energy c' = energy c /\ objectives c' = objectives c
    /\ advice_given c' = Some summary
    /\ history_summary (userdata w') = history_summary (userdata w)
    /\ session_start (userdata w') = session_start (userdata w).
Proof.
  intros now summary w c w' c'. unfold c', w'.
  destruct (complete_checkin_cases now summary w)
    as [[_ ->] | [[_ (e & _ & ->)] | [_ (fs' & _ & ->)]]];
    repeat split; reflexivity.
Qed.

End CompleteMore.

Section CompleteOutcomes.

Local Open Scope list_scope.

Variable json_load : string -> exc json.
Variable json_dump : json -> string.


(** X6. When the check-in is complete and the record is saved,
    [complete_checkin] returns a recap in which the mood, the energy, the
    objectives joined by [", "] and the summary all occur, and the session
    holds the log as saved. *)
Theorem complete_checkin_recap :
  forall (now summary : string) (w : world) (fs' : storage),
    let c := current_checkin (userdata w) in
    is_complete c = true ->
    save_checkin_entry json_load json_dump now
      (set_advice_given (Some summary) c) (disk w) = Ok fs' ->
    exists (m e text : string),
      mood c = Some m /\ energy c = Some e
      /\ complete_checkin json_load json_dump now summary w
         = (Ok text, mkWorld (mkUserdata (set_advice_given (Some summary) c)
                                (history_summary (userdata w))
                                (session_start (userdata w))) fs')
      /\ occurs_in m text /\ occurs_in e text
      /\ occurs_in (String.concat ", " (objectives c)) text
      /\ occurs_in summary text.
Proof.
  intros now summary w fs' c Hc Hsave.
  destruct (proj1 (is_complete_true c) Hc) as ([m Hm] & [e He] & _).
  exists m, e, (recap_text (set_advice_given (Some summary) c) summary).
  split; [exact Hm|]. split; [exact He|].
  split; [apply complete_checkin_saves; assumption|].
  unfold recap_text. cbn [mood energy objectives set_advice_given].
  rewrite Hm, He. cbn [str_opt].
  repeat split.
  - do 4 apply occurs_in_skip. apply occurs_in_head.
  - do 7 apply occurs_in_skip. apply occurs_in_head.
  - do 10 apply occurs_in_skip. apply occurs_in_head.
  - do 14 apply occurs_in_skip. apply occurs_in_head.
Qed.



(** X9. On a location with no log, or with a log that [json_load] does
    not read as a list, [save_checkin_entry] writes a log holding the new
    record alone: whatever text was there is replaced. *)
Theorem save_checkin_entry_starts_afresh :
  forall (now : string) (entry : CheckInState),
    save_checkin_entry json_load json_dump now entry Missing
    = Ok (Stored (json_dump (JList [checkin_record now entry])))
    /\ (forall text : string,
          (forall l, json_load text <> Ok (JList l)) ->
          save_checkin_entry json_load json_dump now entry (Stored text)
          = Ok (Stored (json_dump (JList [checkin_record now entry])))).
Proof.
  intros now entry. split; [reflexivity|].
  intros text H. unfold save_checkin_entry.
  rewrite load_history_stored.
  destruct (json_load text) as [v|e]; [|reflexivity].
  destruct v; try reflexivity. exfalso. exact (H l eq_refl).
Qed.

End CompleteOutcomes.

Lemma complete_checkin_recap_witness :
  exists (m e text : string),
    mood today = Some m /\ energy today = Some e
    /\ complete_checkin RefJson.loads RefJson.dumps "2025-11-23T10:05:00"
         "Keep it up!" todays_session
       = (Ok text,
          mkWorld (mkUserdata (set_advice_given (Some "Keep it up!") today)
                     "" "2025-11-23T10:00:00")
            (Stored (RefJson.dumps (JList
               [ checkin_record "2025-11-22T09:00:00" yesterday;
                 checkin_record "2025-11-23T10:05:00"
                   (set_advice_given (Some "Keep it up!") today) ]))))
    /\ occurs_in m text /\ occurs_in e text
    /\ occurs_in (String.concat ", " (objectives today)) text
    /\ occurs_in "Keep it up!" text.
Proof.
  apply (complete_checkin_recap RefJson.loads RefJson.dumps
           "2025-11-23T10:05:00" "Keep it up!" todays_session).
  - reflexivity.
  - vm_compute. reflexivity.
Defined.



Lemma save_checkin_entry_starts_afresh_witness :
  save_checkin_entry RefJson.loads RefJson.dumps "2025-11-23T10:05:00" today
    (Stored "not json")
  = Ok (Stored (RefJson.dumps
                  (JList [checkin_record "2025-11-23T10:05:00" today]))).
Proof.
  apply (proj2 (save_checkin_entry_starts_afresh RefJson.loads RefJson.dumps
                  "2025-11-23T10:05:00" today) "not json").
  intros l H. vm_compute in H. discriminate H.
Defined.

(** * Further properties of the entrypoint *)

Section EntrypointMore.

Local Open Scope list_scope.

Variable py_repr : json -> string.

Lemma summarize_latest_last (history : list json) (x : json) :
  summarize_latest py_repr (history ++ [x])
  = (timestamp <- subscript x "timestamp" ;;
     mood <- subscript x "mood" ;;
     energy <- subscript x "energy" ;;
     objectives <- subscript x "objectives" ;;
     goals <- join ", " objectives ;;
     Ok ("Last check-in on " ++ format_value py_repr timestamp ++ ". "
         ++ "Mood was " ++ format_value py_repr mood
         ++ ", energy " ++ format_value py_repr energy ++ ". "
         ++ "Goals: " ++ goals ++ ".")%string).
Proof.
  unfold summarize_latest.
  destruct (history ++ [x]) as [|y l] eqn:E.
  - destruct history; discriminate E.
  - rewrite <- E, last_last. reflexivity.
Qed.

(** X10. The summary is made from the last element of the history alone:
    two histories with the same last element have the same summary, or
    raise the same exception. *)
Theorem summarize_latest_only_last :
  forall (h1 h2 : list json) (x : json),
    summarize_latest py_repr (h1 ++ [x]) = summarize_latest py_repr (h2 ++ [x]).
Proof.
  intros h1 h2 x. rewrite !summarize_latest_last. reflexivity.
Qed.

(** X11. The summary raises on a last element that is no record: a
    [TypeError] when it is not a dict, a [KeyError] when it is a dict
    without one of the keys [timestamp], [mood], [energy],
    [objectives]. *)
Theorem summarize_latest_raises :
  forall (history : list json) (x : json),
    ((forall d, x <> JDict d) ->
       summarize_latest py_repr (history ++ [x]) = Raise TypeError)
    /\ (forall d, x = JDict d ->
          lookup "timestamp" d = None \/ lookup "mood" d = None
          \/ lookup "energy" d = None \/ lookup "objectives" d = None ->
          summarize_latest py_repr (history ++ [x]) = Raise KeyError).
Proof.
  intros history x. rewrite summarize_latest_last. split.
  - intros H. destruct x; try reflexivity. exfalso. exact (H d eq_refl).
  - intros d -> H. unfold subscript.
    destruct (lookup "timestamp" d); [cbn [bind] | reflexivity].
    destruct (lookup "mood" d); [cbn [bind] | reflexivity].
    destruct (lookup "energy" d); [cbn [bind] | reflexivity].
    destruct (lookup "objectives" d); [cbn [bind] | reflexivity].
    destruct H as [H | [H | [H | H]]]; discriminate H.
Qed.

Variable json_load : string -> exc json.

(** X12. With no log, a log that cannot be opened, or a log whose text
    does not read as a non-empty list, the entrypoint starts the session
    with an empty check-in and the summary [No previous sessions yet.]. *)
Theorem entrypoint_without_history :
  forall now : string,
    let fresh := Ok (mkUserdata CheckInState_default
                       "No previous sessions yet." now) in
    entrypoint_userdata py_repr json_load now Missing = fresh
    /\ entrypoint_userdata py_repr json_load now Unreadable = fresh
    /\ (forall text : string,
          (forall x l, json_load text <> Ok (JList (x :: l))) ->
          entrypoint_userdata py_repr json_load now (Stored text) = fresh).
Proof.
  intros now fresh. split; [reflexivity|]. split; [reflexivity|].
  intros text H. unfold entrypoint_userdata.
  rewrite load_history_stored.
  destruct (json_load text) as [v|e]; [|reflexivity].
  destruct v; try reflexivity.
  destruct l as [|x l]; [reflexivity|].
  exfalso. exact (H x l eq_refl).
Qed.

(** X13. A log that reads as a list whose last element is not a dict
    stops the entrypoint with a [TypeError]: [load_history] hands the list
    over as it is and the summary subscripts its last element. *)
Theorem entrypoint_raises_on_foreign_log :
  forall (now text : string) (history : list json) (x : json),
    json_load text = Ok (JList (history ++ [x])) ->
    (forall d, x <> JDict d) ->
    entrypoint_userdata py_repr json_load now (Stored text) = Raise TypeError.
Proof.
  intros now text history x Hload Hx. unfold entrypoint_userdata.
  rewrite load_history_stored, Hload. cbn [bind].
  rewrite summarize_latest_last.
  destruct x; try reflexivity. exfalso. exact (Hx d eq_refl).
Qed.

Variable json_dump : json -> string.

(** X14. From one session to the next: once [save_checkin_entry] has
    written a check-in, and the text written reads back, the entrypoint of
    the next session starts with an empty check-in and a summary made of
    the timestamp, mood, energy and objectives of that check-in. *)
Theorem saved_checkin_is_next_summary :
  forall (now next : string) (entry : CheckInState) (fs : storage)
         (history : list json),
    fs <> Unreadable ->
    load_history json_load fs = Ok history ->
    reads_back json_load json_dump
      (JList (history ++ [checkin_record now entry])) ->
    exists fs' : storage,
      save_checkin_entry json_load json_dump now entry fs = Ok fs'
      /\ entrypoint_userdata py_repr json_load next fs'
         = Ok (mkUserdata CheckInState_default
                 ("Last check-in on " ++ now ++ ". "
                  ++ "Mood was " ++ str_opt (mood entry)
                  ++ ", energy " ++ str_opt (energy entry) ++ ". "
                  ++ "Goals: " ++ String.concat ", " (objectives entry) ++ ".")%string
                 next).
Proof.
  intros now next entry fs history Hfs Hload Hback.
  destruct (save_checkin_entry_ok json_load json_dump now entry fs history
              Hfs Hload Hback) as (fs' & Hsave & _ & Hload').
  exists fs'. split; [exact Hsave|].
  unfold entrypoint_userdata. rewrite Hload'. cbn [bind].
  rewrite summarize_latest_record. reflexivity.
Qed.

End EntrypointMore.

Lemma summarize_latest_raises_witness :
  summarize_latest (fun _ => "") ([JDict []] ++ [JNum 1])%list = Raise TypeError
  /\ summarize_latest (fun _ => "")
       ([] ++ [JDict [("timestamp", JStr "2025-11-22T09:00:00")]])%list
     = Raise KeyError.
Proof.
  split.
  - apply (proj1 (summarize_latest_raises (fun _ => "") [JDict []] (JNum 1))).
    intros d H. discriminate H.
  - apply (proj2 (summarize_latest_raises (fun _ => "") []
                    (JDict [("timestamp", JStr "2025-11-22T09:00:00")]))
             [("timestamp", JStr "2025-11-22T09:00:00")] eq_refl).
    right. left. reflexivity.
Defined.

Lemma entrypoint_without_history_witness :
  entrypoint_userdata (fun _ => "") RefJson.loads "t0" (Stored "{}")
  = Ok (mkUserdata CheckInState_default "No previous sessions yet." "t0").
Proof.
  apply (proj2 (proj2 (entrypoint_without_history (fun _ => "")
                         RefJson.loads "t0")) "{}").
  intros x l H. vm_compute in H. discriminate H.
Defined.

Lemma entrypoint_raises_on_foreign_log_witness :
  entrypoint_userdata (fun _ => "") RefJson.loads "t0" (Stored "[1]")
  = Raise TypeError.
Proof.
  apply (entrypoint_raises_on_foreign_log (fun _ => "") RefJson.loads
           "t0" "[1]" [] (JNum 1)).
  - vm_compute. reflexivity.
  - intros d H. discriminate H.
Defined.

Lemma saved_checkin_is_next_summary_witness :
  exists fs' : storage,
    save_checkin_entry RefJson.loads RefJson.dumps "2025-11-23T10:05:00" today
      yesterdays_log = Ok fs'
    /\ entrypoint_userdata (fun _ => "") RefJson.loads "2025-11-24T08:00:00" fs'
       = Ok (mkUserdata CheckInState_default
               ("Last check-in on " ++ "2025-11-23T10:05:00" ++ ". "
                ++ "Mood was " ++ "happy" ++ ", energy " ++ "high" ++ ". "
                ++ "Goals: " ++ "read, walk" ++ ".")
               "2025-11-24T08:00:00").
Proof.
  apply (saved_checkin_is_next_summary (fun _ => "") RefJson.loads RefJson.dumps
           "2025-11-23T10:05:00" "2025-11-24T08:00:00" today yesterdays_log
           [checkin_record "2025-11-22T09:00:00" yesterday]).
  - discriminate.
  - vm_compute. reflexivity.
  - vm_compute. reflexivity.
Defined.

(** * Further properties of the state *)

Lemma map_JStr_injective (a b : list string) :
  map JStr a = map JStr b -> a = b.
Proof.
  revert b. induction a as [|x a IH]; intros [|y b] H;
    try discriminate H; [reflexivity|].
  simpl in H. injection H as -> H. f_equal. apply IH. exact H.
Qed.

Lemma opt_json_injective (a b : option string) :
  opt_json a = opt_json b -> a = b.
Proof.
  destruct a, b; simpl; intros H; try discriminate H;
    [injection H as ->|]; reflexivity.
Qed.

(** X15. [to_dict] keeps every field apart: two check-ins with the same
    dict are the same check-in. *)
Theorem to_dict_injective :
  forall a b : CheckInState, to_dict a = to_dict b -> a = b.
Proof.
  intros [m1 e1 o1 a1] [m2 e2 o2 a2]. unfold to_dict. simpl. intros H.
  injection H as Hm He Ho Ha.
  apply opt_json_injective in Hm, He, Ha. apply map_JStr_injective in Ho.
  congruence.
Qed.

Lemma to_dict_injective_witness :
  set_advice_given None (set_advice_given (Some "Keep it up!") today) = today.
Proof.
  apply (to_dict_injective
           (set_advice_given None (set_advice_given (Some "Keep it up!") today))
           today).
  reflexivity.
Defined.

(** * A session from the first tool to the log *)

Section WholeSession.

Local Open Scope list_scope.

Variable json_load : string -> exc json.
Variable json_dump : json -> string.

(** X16. A session that records mood and energy, records at least one
    objective and completes, on a log that can be written and reads back:
    the recap is returned and the log is the history read at the start
    followed by one record with the recorded mood, energy and objectives,
    the summary and the time of the write; what the check-in held before
    the session plays no part. *)
Theorem session_appends_what_was_recorded :
  forall (m e o summary now : string) (os : list string) (w : world)
         (history : list json),
    let record :=
      JDict [ ("timestamp", JStr now);
              ("mood", JStr m);
              ("energy", JStr e);
              ("objectives", JList (JStr o :: map JStr os));
              ("summary", JStr summary) ] in
    let recorded := mkCheckInState (Some m) (Some e) (o :: os) (Some summary) in
    disk w <> Unreadable ->
    load_history json_load (disk w) = Ok history ->
    reads_back json_load json_dump (JList (history ++ [record])) ->
    let w1 := snd (record_mood_and_energy m e w) in
    let w2 := snd (record_objectives (o :: os) w1) in
    let r := complete_checkin json_load json_dump now summary w2 in
    fst r = Ok (recap_text recorded summary)
    /\ current_checkin (userdata (snd r)) = recorded
    /\ load_history json_load (disk (snd r)) = Ok (history ++ [record]).
Proof.
  intros m e o summary now os [[c hs st] fs] history record recorded
         Hfs Hload Hback w1 w2 r.
  cbn [disk] in Hfs, Hload.
  destruct (save_checkin_entry_ok json_load json_dump now recorded fs history
              Hfs Hload Hback) as (fs' & Hsave & _ & Hload').
  assert (Hr : r = (Ok (recap_text recorded summary),
                    mkWorld (mkUserdata recorded hs st) fs')).
  { unfold r, w2, w1.
    apply (complete_checkin_saves json_load json_dump now summary
             (mkWorld (mkUserdata (mkCheckInState (Some m) (Some e) (o :: os)
                                     (advice_given c)) hs st) fs) fs').
    - reflexivity.
    - exact Hsave. }
  rewrite Hr. cbn [fst snd userdata current_checkin disk].
  repeat split; trivial.
Qed.

End WholeSession.

Lemma session_appends_what_was_recorded_witness :
  let w := mkWorld (mkUserdata yesterday "" "t0") yesterdays_log in
  let w1 := snd (record_mood_and_energy "happy" "high" w) in
  let w2 := snd (record_objectives ["read"; "walk"] w1) in
  let r := complete_checkin RefJson.loads RefJson.dumps "2025-11-23T10:05:00"
             "Keep it up!" w2 in
  load_history RefJson.loads (disk (snd r))
  = Ok [ checkin_record "2025-11-22T09:00:00" yesterday;
         JDict [ ("timestamp", JStr "2025-11-23T10:05:00");
                 ("mood", JStr "happy");
                 ("energy", JStr "high");
                 ("objectives", JList [JStr "read"; JStr "walk"]);
                 ("summary", JStr "Keep it up!") ] ].
Proof.
  intros w w1 w2 r.
  assert (Hfs : disk w <> Unreadable) by discriminate.
  assert (Hload : load_history RefJson.loads (disk w)
                  = Ok [checkin_record "2025-11-22T09:00:00" yesterday])
    by (vm_compute; reflexivity).
  assert (Hback : reads_back RefJson.loads RefJson.dumps
            (JList ([checkin_record "2025-11-22T09:00:00" yesterday]
               ++ [JDict [ ("timestamp", JStr "2025-11-23T10:05:00");
                           ("mood", JStr "happy");
                           ("energy", JStr "high");
                           ("objectives", JList (JStr "read" :: map JStr ["walk"]));
                           ("summary", JStr "Keep it up!") ]])%list))
    by (vm_compute; reflexivity).
  exact (proj2 (proj2
           (session_appends_what_was_recorded RefJson.loads RefJson.dumps
              "happy" "high" "read" "Keep it up!" "2025-11-23T10:05:00"
              ["walk"] w [checkin_record "2025-11-22T09:00:00" yesterday]
              Hfs Hload Hback))).
Defined.
